(** * The Tailwind build configuration of caps-edge

    [tailwind.config.js] is one JavaScript module whose export is an object
    literal: the globs of the files to scan, the theme extension (font and
    colour aliases) and the list of plugins.  The development below embeds
    that value: arrays are lists, the two alias objects are finite maps built
    from the entries of their literals the way JavaScript builds an object,
    and the fixed-shape objects are records. *)

From Stdlib Require Import Ascii String List Bool Lia.
From stdpp Require Import base option list strings gmap fin_maps.

Local Open Scope string_scope.
Local Open Scope list_scope.

(** ** JavaScript object literals *)

Module JS.

(** The character U+0022, which the source writes inside single-quoted
    strings. *)
Definition dquote : ascii := ascii_of_nat 34.

(** A string literal whose content is wrapped in double quotes, as the
    primary font names are. *)
Definition quoted (s : string) : string :=
  String dquote (s +:+ String dquote EmptyString).

(** The property definitions of an object literal, in source order. *)
Definition entries (V : Type) : Type := list (string * V).

Definition keys {V : Type} (l : entries V) : list string := l.*1.

(** One property definition: a later definition of a key replaces an
    earlier one. *)
Definition define {V : Type} (o : gmap string V) (kv : string * V) :
  gmap string V := <[kv.1 := kv.2]> o.

(** Evaluating an object literal defines its properties from left to
    right, starting from the empty object.  The map holds the own
    properties of the object; what it inherits from its prototype is not
    part of it. *)
Definition object {V : Type} (l : entries V) : gmap string V :=
  fold_left define l ∅.

End JS.

(** ** The configuration record *)

(** An extension module referenced from [plugins]. *)
Inductive Plugin : Type :=
  | PluginModule (name : string).

Record ThemeExtension : Type := {
  fontFamily : gmap string (list string);
  colors : gmap string string
}.

Record Theme : Type := {
  extend : ThemeExtension
}.

Record Config : Type := {
  content : list string;
  theme : Theme;
  plugins : list Plugin
}.

(** The entries of the two alias literals, as the file lists them. *)
Definition fontFamily_entries : JS.entries (list string) :=
  [ ("arcade", [JS.quoted "Press Start 2P"; "cursive"]);
    ("mono", [JS.quoted "JetBrains Mono"; "monospace"]) ].

Definition colors_entries : JS.entries string :=
  [ ("void", "#09090b");
    ("void-light", "#18181b");
    ("neon-cyan", "#00f3ff");
    ("neon-pink", "#ff00ff");
    ("neon-green", "#39ff14");
    ("grid-line", "#27272a") ].

(** [module.exports] *)
Definition module_exports : Config := {|
  content := [ "./frontend/**/*.{html,js}" ];
  theme := {|
    extend := {|
      fontFamily := JS.object fontFamily_entries;
      colors := JS.object colors_entries
    |}
  |};
  plugins := []
|}.

(** The attributes of the data model, read off the exported record. *)
Definition contentGlobs : list string := content module_exports.
Definition themeExtension : ThemeExtension := extend (theme module_exports).

(** ** Hex colour literals *)

Module Hex.

Definition in_range (lo hi : nat) (c : ascii) : bool :=
  let n := nat_of_ascii c in Nat.leb lo n && Nat.leb n hi.

(** [0-9], [a-f], [A-F] *)
Definition is_digit : ascii → bool := in_range 48 57.
Definition is_lower_af : ascii → bool := in_range 97 102.
Definition is_upper_AF : ascii → bool := in_range 65 70.

(** [[0-9A-Fa-f]] *)
Definition is_hex_digit (c : ascii) : bool :=
  is_digit c || is_upper_AF c || is_lower_af c.

(** [[0-9a-f]] *)
Definition is_lower_hex_digit (c : ascii) : bool :=
  is_digit c || is_lower_af c.

(** The whole string is a [#] followed by exactly six characters of the
    class [digit]. *)
Definition hash_six (digit : ascii → bool) (s : string) : bool :=
  match s with
  | EmptyString => false
  | String c rest =>
      Ascii.eqb c "#"
      && Nat.eqb (String.length rest) 6
      && forallb digit (list_ascii_of_string rest)
  end.

(** The pattern [#[0-9A-Fa-f]{6}], matched against the whole string. *)
Definition is_hex_color : string → bool := hash_six is_hex_digit.

(** The same with lowercase digits only: [#[0-9a-f]{6}]. *)
Definition is_lower_hex_color : string → bool := hash_six is_lower_hex_digit.

End Hex.

(** ** Names and quoted strings

    The shapes of the strings the file writes: alias keys and fallback
    fonts are bare names, primary fonts are strings in double quotes. *)

Module Name.

(** [[a-z]] *)
Definition is_lower : ascii → bool := Hex.in_range 97 122.

Definition is_name_char (c : ascii) : bool := is_lower c || Ascii.eqb c "-".

(** Lowercase letters and hyphens, with a letter at both ends. *)
Definition is_bare (s : string) : bool :=
  let l := list_ascii_of_string s in
  forallb is_name_char l
  && from_option is_lower false (head l)
  && from_option is_lower false (last l).

(** A double quote, then characters other than the double quote, then a
    double quote. *)
Definition is_quoted (s : string) : bool :=
  match list_ascii_of_string s with
  | [] => false
  | c :: r =>
      Ascii.eqb c JS.dquote
      && from_option (Ascii.eqb JS.dquote) false (last r)
      && forallb (λ d, negb (Ascii.eqb d JS.dquote)) (removelast r)
  end.

End Name.

(** * Properties *)

(** ** Hex colour classes *)

Lemma lower_hex_digit_is_hex_digit c :
  Hex.is_lower_hex_digit c = true → Hex.is_hex_digit c = true.
Proof.
  unfold Hex.is_lower_hex_digit, Hex.is_hex_digit.
  destruct (Hex.is_digit c), (Hex.is_upper_AF c), (Hex.is_lower_af c); auto.
Qed.

Lemma hash_six_mono (p q : ascii → bool) s :
  (∀ c, p c = true → q c = true) →
  Hex.hash_six p s = true → Hex.hash_six q s = true.
Proof.
  intros Hpq. destruct s as [|c rest]; [done|]. simpl.
  rewrite !andb_true_iff, !forallb_forall. intros [Hhead Hp].
  split; [done|]. intros x Hx. by apply Hpq, Hp.
Qed.

Lemma lower_hex_color_is_hex_color s :
  Hex.is_lower_hex_color s = true → Hex.is_hex_color s = true.
Proof. apply hash_six_mono, lower_hex_digit_is_hex_digit. Qed.

(** ** Object literals *)

Section object_literal.
Context {V : Type}.
Implicit Types (l : JS.entries V) (k : string) (v : V).

Lemma object_snoc l k v :
  JS.object (l ++ [(k, v)]) = <[k := v]> (JS.object l).
Proof. unfold JS.object. by rewrite fold_left_app. Qed.

Lemma keys_snoc l k v : JS.keys (l ++ [(k, v)]) = JS.keys l ++ [k].
Proof. unfold JS.keys. by rewrite fmap_app. Qed.

(** Every property of the object was defined by an entry of the literal. *)
Lemma object_lookup_elem l k v : JS.object l !! k = Some v → (k, v) ∈ l.
Proof.
  induction l as [|[j y] l IH] using rev_ind; [done|].
  rewrite object_snoc, elem_of_app, list_elem_of_singleton.
  destruct (decide (j = k)) as [->|Hne].
  - rewrite lookup_insert_eq. intros [= ->]. by right.
  - rewrite lookup_insert_ne by done. auto.
Qed.

(** The keys of the object are the keys of the literal. *)
Lemma object_dom l : dom (JS.object l) = list_to_set (JS.keys l).
Proof.
  induction l as [|[j y] l IH] using rev_ind; [done|].
  rewrite object_snoc, keys_snoc, dom_insert_L, list_to_set_app_L, IH.
  simpl. by rewrite (right_id_L ∅ (∪)), (comm_L (∪)).
Qed.

Lemma object_lookup_None l k : k ∉ JS.keys l → JS.object l !! k = None.
Proof.
  intros Hk. apply not_elem_of_dom. by rewrite object_dom, elem_of_list_to_set.
Qed.

(** When no key is defined twice, no entry is overwritten. *)
Lemma object_lookup_NoDup l k v :
  NoDup (JS.keys l) → (k, v) ∈ l → JS.object l !! k = Some v.
Proof.
  induction l as [|[j y] l IH] using rev_ind; [by intros _ ?%elem_of_nil|].
  rewrite keys_snoc, NoDup_app, object_snoc, elem_of_app,
    list_elem_of_singleton.
  intros (Hl & Hfresh & _) [Hin | [= -> ->]].
  - rewrite lookup_insert_ne; [by apply IH|].
    intros ->. apply (Hfresh k); [|by left].
    unfold JS.keys. apply list_elem_of_fmap. by exists (k, v).
  - by rewrite lookup_insert_eq.
Qed.

Lemma object_size l : NoDup (JS.keys l) → size (JS.object l) = length l.
Proof.
  induction l as [|[j y] l IH] using rev_ind; [done|].
  rewrite keys_snoc, NoDup_app, object_snoc, length_app. simpl.
  intros (Hl & Hfresh & _).
  rewrite map_size_insert_None, IH; [lia | done |].
  apply object_lookup_None. intros Hj. apply (Hfresh j Hj). by left.
Qed.

End object_literal.

(** ** The configuration *)

Lemma fontFamily_keys_NoDup : NoDup (JS.keys fontFamily_entries).
Proof. apply (bool_decide_unpack _). by vm_compute. Qed.

Lemma colors_keys_NoDup : NoDup (JS.keys colors_entries).
Proof. apply (bool_decide_unpack _). by vm_compute. Qed.

Lemma colors_entries_lower_hex :
  Forall (λ kv, Hex.is_lower_hex_color kv.2 = true) colors_entries.
Proof. repeat constructor. Qed.

Lemma fontFamily_entries_nonempty :
  Forall (λ kv : string * list string, kv.2 ≠ []) fontFamily_entries.
Proof. by repeat constructor. Qed.

Lemma colors_lower_hex k v :
  colors themeExtension !! k = Some v → Hex.is_lower_hex_color v = true.
Proof.
  intros Hin%object_lookup_elem.
  by apply (proj1 (Forall_forall _ _) colors_entries_lower_hex (k, v)).
Qed.

(** * The claims *)

(** C1: every value of the colors mapping matches the pattern
    [#[0-9A-Fa-f]{6}], that is, is a [#RRGGBB] hex colour literal. *)
Theorem colors_values_hex k v :
  colors themeExtension !! k = Some v → Hex.is_hex_color v = true.
Proof. intros H. by eapply lower_hex_color_is_hex_color, colors_lower_hex. Qed.

Lemma colors_values_hex_witness :
  colors themeExtension !! "neon-green" = Some "#39ff14"
  ∧ Hex.is_hex_color "#39ff14" = true.
Proof.
  split; [reflexivity|].
  apply (colors_values_hex "neon-green" "#39ff14"). reflexivity.
Defined.

(** C2: the font alias [arcade] maps to the two-entry sequence whose primary
    entry is [Press Start 2P] in double quotes and whose only fallback is
    [cursive]. *)
Theorem fontFamily_arcade :
  ∃ primary fallbacks,
    fontFamily themeExtension !! "arcade" = Some (primary :: fallbacks)
    ∧ primary = String JS.dquote "Press Start 2P" +:+ String JS.dquote EmptyString
    ∧ fallbacks = ["cursive"].
Proof. by eexists _, _. Qed.

(** C3: the colour alias [void] maps to exactly [#09090b]. *)
Theorem colors_void : colors themeExtension !! "void" = Some "#09090b".
Proof. reflexivity. Qed.

(** C4: the content sequence, a list of glob strings, is non-empty. *)
Theorem contentGlobs_nonempty : contentGlobs ≠ [] ∧ 0 < length contentGlobs.
Proof. split; [done | simpl; lia]. Qed.

(** C5: every font alias maps to a non-empty sequence of strings. *)
Theorem fontFamily_values_nonempty k (v : list string) :
  fontFamily themeExtension !! k = Some v → v ≠ [] ∧ 0 < length v.
Proof.
  intros Hin%object_lookup_elem.
  pose proof (proj1 (Forall_forall _ _) fontFamily_entries_nonempty (k, v) Hin)
    as Hv.
  split; [done|]. destruct v; [done | simpl; lia].
Qed.

Lemma fontFamily_values_nonempty_witness :
  fontFamily themeExtension !! "mono"
    = Some [JS.quoted "JetBrains Mono"; "monospace"]
  ∧ [JS.quoted "JetBrains Mono"; "monospace"] ≠ []
  ∧ 0 < length [JS.quoted "JetBrains Mono"; "monospace"].
Proof.
  split; [reflexivity|].
  apply (fontFamily_values_nonempty "mono"). reflexivity.
Defined.

(** C6: the plugins sequence is empty. *)
Theorem plugins_empty : plugins module_exports = [].
Proof. reflexivity. Qed.

(** C7: no font alias and no colour alias is written twice, so each mapping
    has one key per entry of its literal. *)
Theorem alias_keys_unique :
  NoDup (JS.keys fontFamily_entries)
  ∧ NoDup (JS.keys colors_entries)
  ∧ size (fontFamily themeExtension) = length fontFamily_entries
  ∧ size (colors themeExtension) = length colors_entries.
Proof.
  split_and!.
  - apply fontFamily_keys_NoDup.
  - apply colors_keys_NoDup.
  - apply object_size, fontFamily_keys_NoDup.
  - apply object_size, colors_keys_NoDup.
Qed.


(** C10: the font aliases are exactly [arcade] and [mono], with [mono]
    mapped to the quoted [JetBrains Mono] followed by [monospace]; the colour
    aliases are exactly the six of the file, each mapped to a lowercase
    six-digit hex literal. *)
Theorem themeExtension_aliases :
  dom (fontFamily themeExtension) = {[ "arcade"; "mono" ]}
  ∧ size (fontFamily themeExtension) = 2
  ∧ fontFamily themeExtension !! "mono"
      = Some [String JS.dquote "JetBrains Mono" +:+ String JS.dquote EmptyString;
              "monospace"]
  ∧ dom (colors themeExtension)
      = {[ "void"; "void-light"; "neon-cyan"; "neon-pink"; "neon-green";
           "grid-line" ]}
  ∧ size (colors themeExtension) = 6
  ∧ ∀ k v, colors themeExtension !! k = Some v →
      Hex.is_lower_hex_color v = true.
Proof.
  split_and!.
  - simpl. rewrite object_dom. simpl. by rewrite (right_id_L ∅ (∪)).
  - apply (object_size fontFamily_entries), fontFamily_keys_NoDup.
  - reflexivity.
  - simpl. rewrite object_dom. simpl. by rewrite (right_id_L ∅ (∪)), !(assoc_L (∪)).
  - apply (object_size colors_entries), colors_keys_NoDup.
  - apply colors_lower_hex.
Qed.

Lemma themeExtension_aliases_witness :
  colors themeExtension !! "grid-line" = Some "#27272a"
  ∧ Hex.is_lower_hex_color "#27272a" = true.
Proof.
  split; [reflexivity|].
  apply (proj2 (proj2 (proj2 (proj2 (proj2 themeExtension_aliases))))
           "grid-line" "#27272a").
  reflexivity.
Defined.

(** * Further properties of the configuration *)

Lemma elem_of_snd_inj {A B} (l : list (A * B)) a1 a2 b :
  NoDup l.*2 → (a1, b) ∈ l → (a2, b) ∈ l → a1 = a2.
Proof.
  induction l as [|[a b'] l IH]; [by intros _ ?%elem_of_nil|].
  rewrite fmap_cons, NoDup_cons, !elem_of_cons. simpl.
  intros [Hfresh Hl] [E1 | H1] [E2 | H2].
  - congruence.
  - injection E1 as -> <-. destruct Hfresh.
    apply list_elem_of_fmap. by exists (a2, b).
  - injection E2 as -> <-. destruct Hfresh.
    apply list_elem_of_fmap. by exists (a1, b).
  - by apply IH.
Qed.

Lemma colors_values_NoDup : NoDup colors_entries.*2.
Proof. apply (bool_decide_unpack _). by vm_compute. Qed.

Lemma fontFamily_entries_shape :
  Forall (λ kv : string * list string,
            ∃ primary fallback,
              kv.2 = [primary; fallback]
              ∧ Name.is_quoted primary = true
              ∧ Name.is_bare fallback = true) fontFamily_entries.
Proof. repeat constructor; by eexists _, _. Qed.

Lemma alias_keys_bare :
  Forall (λ k, Name.is_bare k = true)
    (JS.keys fontFamily_entries ++ JS.keys colors_entries).
Proof. repeat constructor. Qed.

(** X1: each of the six colour aliases looks up to the value the file
    writes for it. *)
Theorem colors_table :
  colors themeExtension !! "void" = Some "#09090b"
  ∧ colors themeExtension !! "void-light" = Some "#18181b"
  ∧ colors themeExtension !! "neon-cyan" = Some "#00f3ff"
  ∧ colors themeExtension !! "neon-pink" = Some "#ff00ff"
  ∧ colors themeExtension !! "neon-green" = Some "#39ff14"
  ∧ colors themeExtension !! "grid-line" = Some "#27272a".
Proof.
  split_and!; apply object_lookup_NoDup;
    try apply colors_keys_NoDup; apply (bool_decide_unpack _); by vm_compute.
Qed.

(** X3: no two colour aliases share a value: aliases that look up to the
    same colour are the same alias. *)
Theorem colors_injective k1 k2 v :
  colors themeExtension !! k1 = Some v →
  colors themeExtension !! k2 = Some v →
  k1 = k2.
Proof.
  intros H1%object_lookup_elem H2%object_lookup_elem.
  exact (elem_of_snd_inj _ _ _ _ colors_values_NoDup H1 H2).
Qed.

Lemma colors_injective_witness : "neon-pink" = "neon-pink".
Proof.
  apply (colors_injective "neon-pink" "neon-pink" "#ff00ff"); reflexivity.
Defined.

(** X4: every font stack has two entries: a primary font written in double
    quotes, then a bare fallback. *)
Theorem fontFamily_stack_shape k (v : list string) :
  fontFamily themeExtension !! k = Some v →
  ∃ primary fallback,
    v = [primary; fallback]
    ∧ Name.is_quoted primary = true
    ∧ Name.is_bare fallback = true.
Proof.
  intros Hin%object_lookup_elem.
  exact (proj1 (Forall_forall _ _) fontFamily_entries_shape (k, v) Hin).
Qed.

Lemma fontFamily_stack_shape_witness :
  ∃ primary fallback,
    [JS.quoted "Press Start 2P"; "cursive"] = [primary; fallback]
    ∧ Name.is_quoted primary = true
    ∧ Name.is_bare fallback = true.
Proof. apply (fontFamily_stack_shape "arcade"). reflexivity. Defined.

(** X5: every alias key, of a font or of a colour, is a bare name:
    lowercase letters and hyphens, with a letter at both ends. *)
Theorem alias_names_bare k :
  k ∈ dom (fontFamily themeExtension) ∨ k ∈ dom (colors themeExtension) →
  Name.is_bare k = true.
Proof.
  simpl. rewrite !object_dom, !elem_of_list_to_set, <-elem_of_app.
  apply (proj1 (Forall_forall _ _) alias_keys_bare).
Qed.

Lemma alias_names_bare_witness : Name.is_bare "void-light" = true.
Proof.
  apply (alias_names_bare "void-light"). right.
  apply (bool_decide_unpack _). vm_compute. reflexivity.
Defined.

Example unquoted_name_not_quoted : Name.is_quoted "cursive" = false.
Proof. reflexivity. Qed.

Example quoted_name_not_bare :
  Name.is_bare (JS.quoted "Press Start 2P") = false.
Proof. reflexivity. Qed.

Example trailing_hyphen_not_bare : Name.is_bare "void-" = false.
Proof. reflexivity. Qed.
